(** * The [User] facade of the Twitch API client (src/API/User/User.ts)

    The class wraps one fetched [UserData] record together with a reference
    to the owning [TwitchClient].  Its getters project fields of the record;
    its [async] methods forward to collaborators reached through the client
    and, for [isSubscribedTo] and [follows], turn selected rejections into
    [false].

    The embedding is monadic: a method body is a computation in an
    exception-over-state monad.  The state holds the receiver object, the
    remote service and the log of collaborator calls issued so far.  A
    rejected promise and a synchronous [throw] are both the [inl] outcome,
    a resolved promise or a normal return is [inr]. *)

From Stdlib Require Import String List Bool.
From Stdlib Require Import Floats.PrimFloat.
From Stdlib Require Import PeanoNat Lia.
From ExtLib Require Import Structures.Monad Structures.MonadState.
From ExtLib Require Import Structures.MonadExc.
From ExtLib Require Import Data.Monads.StateMonad Data.Monads.EitherMonad.
Import ListNotations.
Import MonadNotation.
Local Open Scope monad_scope.
Local Open Scope string_scope.
Local Open Scope list_scope.

Set Implicit Arguments.

(** ** Thrown values and [instanceof] *)

(** The three error classes the file imports, and any other constructor. *)
Inductive ErrorClass : Type :=
| NoSubscriptionProgram
| NotSubscribed
| NotFollowing
| OtherClass (ctor : string).

Definition ErrorClass_eqb (c d : ErrorClass) : bool :=
  match c, d with
  | NoSubscriptionProgram, NoSubscriptionProgram => true
  | NotSubscribed, NotSubscribed => true
  | NotFollowing, NotFollowing => true
  | OtherClass x, OtherClass y => String.eqb x y
  | _, _ => false
  end.

(** A JavaScript value that was thrown.  [protoChain] lists the classes whose
    prototype is on the value's prototype chain, nearest first; it is empty
    for a thrown primitive. *)
Record Thrown : Type := mkThrown {
  protoChain : list ErrorClass;
  message : string
}.

(** [e instanceof C] *)
Definition instanceof (e : Thrown) (C : ErrorClass) : bool :=
  existsb (ErrorClass_eqb C) (protoChain e).

(** A JavaScript [number] is an IEEE 754 binary64 value. *)
Definition number : Type := float.

(** ** The backing record: [interface UserData] *)

Module UserData.
Record t : Type := mk {
  _id : string;
  bio : string;
  created_at : string;
  name : string;
  display_name : string;
  logo : string;
  type : string;
  updated_at : string
}.
End UserData.

(** The literal types of the [orderBy] and [orderDirection] parameters of
    [getFollows]: ['created_at' | 'last_broadcast' | 'login'] and
    ['asc' | 'desc']. *)
Inductive OrderBy : Type := created_at | last_broadcast | login.
Inductive OrderDirection : Type := asc | desc.

(** ** Collaborator types

    Classes and types that User.ts imports and only passes around.  [Remote]
    is the state of the remote service as the client observes it. *)
Class ApiTypes : Type := {
  TwitchClient : Type;
  UserIdResolvable : Type;
  Channel : Type;
  Stream : Type;
  UserSubscription : Type;
  UserFollow : Type;
  PrivilegedUser : Type;
  FollowChannelResult : Type;
  Remote : Type
}.

(** Modelled from the spec: the class [ChannelPlaceholder] (imported from
    ../Channel/ChannelPlaceholder) is not part of the sources at hand.  The
    spec describes it as holding only the identifier and a reference to the
    remote API client; its constructor is called as
    [new ChannelPlaceholder(id, client)]. *)
Record ChannelPlaceholder {T : ApiTypes} : Type := new_ChannelPlaceholder {
  placeholder_id : string;
  placeholder_client : TwitchClient
}.
Arguments new_ChannelPlaceholder {T} _ _.

(** [class User]: the constructor stores its two arguments. *)
Record User {T : ApiTypes} : Type := new_User {
  _data : UserData.t;
  _client : TwitchClient
}.
Arguments new_User {T} _ _.

(** One entry of the log of collaborator calls, with the receiver first and
    then the arguments as passed. *)
Inductive Call {T : ApiTypes} : Type :=
| Call_channels_getChannel (client : TwitchClient) (user : User)
| Call_placeholder_getStream (placeholder : ChannelPlaceholder)
| Call_users_getSubscriptionData
    (client : TwitchClient) (user : User) (channel : UserIdResolvable)
| Call_users_getFollowedChannels
    (client : TwitchClient) (user : User)
    (page limit : option number)
    (orderBy : option OrderBy) (orderDirection : option OrderDirection)
| Call_users_getFollowedChannel
    (client : TwitchClient) (user : User) (channel : UserIdResolvable)
| Call_users_getMe (client : TwitchClient)
| Call_followChannel (currentUser : PrivilegedUser) (channel : User)
| Call_unfollowChannel (currentUser : PrivilegedUser) (channel : User).

(** The outcome of awaiting a collaborator: the settled promise and the
    remote state after the round trip. *)
Definition Reply {T : ApiTypes} (A : Type) : Type :=
  Remote -> (Thrown + A) * Remote.

(** What each collaborator operation answers.  These are the methods User.ts
    calls on [this._client.channels], [this._client.users], on the
    [PrivilegedUser] that [getMe] resolves to, and on a
    [ChannelPlaceholder]; their bodies live outside this file. *)
Class TwitchApi {T : ApiTypes} : Type := {
  api_channels_getChannel : TwitchClient -> User -> Reply Channel;
  api_placeholder_getStream : ChannelPlaceholder -> Reply Stream;
  api_users_getSubscriptionData :
    TwitchClient -> User -> UserIdResolvable -> Reply UserSubscription;
  api_users_getFollowedChannels :
    TwitchClient -> User -> option number -> option number ->
    option OrderBy -> option OrderDirection -> Reply (list UserFollow);
  api_users_getFollowedChannel :
    TwitchClient -> User -> UserIdResolvable -> Reply UserFollow;
  api_users_getMe : TwitchClient -> Reply PrivilegedUser;
  api_followChannel : PrivilegedUser -> User -> Reply FollowChannelResult;
  api_unfollowChannel : PrivilegedUser -> User -> Reply unit
}.

(** ** Program state and the method monad *)

Record World {T : ApiTypes} : Type := mkWorld {
  this : User;
  remote : Remote;
  calls : list Call
}.
Arguments mkWorld {T} _ _ _.

Definition M {T : ApiTypes} : Type -> Type := eitherT Thrown (state World).

Definition run {T : ApiTypes} {A : Type} (m : M A) (w : World)
  : (Thrown + A) * World :=
  runState (unEitherT m) w.

(** Issue one collaborator call: the remote state advances as the
    collaborator answers and the call is appended to the log. *)
Definition remote_call {T : ApiTypes} {A : Type}
    (c : Call) (answer : Reply A) : M A :=
  mkEitherT (mkState (fun w =>
    let (r, rem) := answer (remote w) in
    (r, {| this := this w; remote := rem; calls := calls w ++ [c] |}))).

(** Read a field of the receiver. *)
Definition this_data {T : ApiTypes} : M UserData.t :=
  w <- get ;; ret (_data (this w)).

Definition this_client {T : ApiTypes} : M TwitchClient :=
  w <- get ;; ret (_client (this w)).

Definition this_ref {T : ApiTypes} : M User :=
  w <- get ;; ret (this w).

(** The outcome of one collaborator call made in world [w]. *)
Definition settle {T : ApiTypes} {A : Type}
    (c : Call) (answer : Reply A) (w : World)
  : (Thrown + A) * World :=
  (fst (answer (remote w)),
   mkWorld (this w) (snd (answer (remote w))) (calls w ++ [c])).

(** A computation that leaves the receiver object as it found it. *)
Definition keeps_this {T : ApiTypes} {A : Type} (m : M A) : Prop :=
  forall w : World, this (snd (run m w)) = this w.

(** ** The collaborators as seen from the facade

    Each stub performs the call through [remote_call] so that it shows up in
    the log with the arguments it received. *)
Section Collaborators.
Context {T : ApiTypes} {api : TwitchApi}.

(** [client.channels.getChannel(user)] *)
Definition channels_getChannel (client : TwitchClient) (user : User)
  : M Channel :=
  remote_call (Call_channels_getChannel client user)
              (api_channels_getChannel client user).

(** [placeholder.getStream()] *)
Definition placeholder_getStream (placeholder : ChannelPlaceholder)
  : M Stream :=
  remote_call (Call_placeholder_getStream placeholder)
              (api_placeholder_getStream placeholder).

(** [client.users.getSubscriptionData(user, channel)] *)
Definition users_getSubscriptionData
    (client : TwitchClient) (user : User) (channel : UserIdResolvable)
  : M UserSubscription :=
  remote_call (Call_users_getSubscriptionData client user channel)
              (api_users_getSubscriptionData client user channel).

(** [client.users.getFollowedChannels(user, page, limit, orderBy,
    orderDirection)] *)
Definition users_getFollowedChannels
    (client : TwitchClient) (user : User)
    (page limit : option number)
    (orderBy : option OrderBy) (orderDirection : option OrderDirection)
  : M (list UserFollow) :=
  remote_call
    (Call_users_getFollowedChannels client user page limit orderBy
                                    orderDirection)
    (api_users_getFollowedChannels client user page limit orderBy
                                   orderDirection).

(** [client.users.getFollowedChannel(user, channel)] *)
Definition users_getFollowedChannel
    (client : TwitchClient) (user : User) (channel : UserIdResolvable)
  : M UserFollow :=
  remote_call (Call_users_getFollowedChannel client user channel)
              (api_users_getFollowedChannel client user channel).

(** [client.users.getMe()] *)
Definition users_getMe (client : TwitchClient) : M PrivilegedUser :=
  remote_call (Call_users_getMe client) (api_users_getMe client).

(** [currentUser.followChannel(channel)] *)
Definition followChannel (currentUser : PrivilegedUser) (channel : User)
  : M FollowChannelResult :=
  remote_call (Call_followChannel currentUser channel)
              (api_followChannel currentUser channel).

(** [currentUser.unfollowChannel(channel)] *)
Definition unfollowChannel (currentUser : PrivilegedUser) (channel : User)
  : M unit :=
  remote_call (Call_unfollowChannel currentUser channel)
              (api_unfollowChannel currentUser channel).
End Collaborators.

(** ** The methods of [class User] *)

Module User.
Section Methods.
Context {T : ApiTypes} {api : TwitchApi}.

(** [get cacheKey() { return this._data._id; }] *)
Definition cacheKey : M string :=
  d <- this_data ;; ret (UserData._id d).

(** [get id() { return this._data._id; }] *)
Definition id : M string :=
  d <- this_data ;; ret (UserData._id d).

(** [get userName() { return this._data.name; }] (deprecated) *)
Definition userName : M string :=
  d <- this_data ;; ret (UserData.name d).

(** [get name() { return this._data.name; }] *)
Definition name : M string :=
  d <- this_data ;; ret (UserData.name d).

(** [get displayName() { return this._data.display_name; }] *)
Definition displayName : M string :=
  d <- this_data ;; ret (UserData.display_name d).

(** [get logoUrl() { return this._data.logo; }] *)
Definition logoUrl : M string :=
  d <- this_data ;; ret (UserData.logo d).

(** [async getChannel() { return this._client.channels.getChannel(this); }] *)
Definition getChannel : M Channel :=
  client <- this_client ;;
  self <- this_ref ;;
  channels_getChannel client self.

(** [getChannelPlaceholder() {
      return new ChannelPlaceholder(this._data._id, this._client); }] *)
Definition getChannelPlaceholder : M ChannelPlaceholder :=
  d <- this_data ;;
  client <- this_client ;;
  ret (new_ChannelPlaceholder (UserData._id d) client).

(** [async getStream() { return this.getChannelPlaceholder().getStream(); }] *)
Definition getStream : M Stream :=
  placeholder <- getChannelPlaceholder ;;
  placeholder_getStream placeholder.

(** [async getSubscriptionTo(channel) {
      return this._client.users.getSubscriptionData(this, channel); }] *)
Definition getSubscriptionTo (channel : UserIdResolvable)
  : M UserSubscription :=
  client <- this_client ;;
  self <- this_ref ;;
  users_getSubscriptionData client self channel.

(** [async isSubscribedTo(channel) {
      try { await this.getSubscriptionTo(channel); return true; }
      catch (e) {
        if (e instanceof NoSubscriptionProgram || e instanceof NotSubscribed) {
          return false;
        }
        throw e;
      } }] *)
Definition isSubscribedTo (channel : UserIdResolvable) : M bool :=
  catch
    (getSubscriptionTo channel ;;
     ret true)
    (fun e =>
       if instanceof e NoSubscriptionProgram || instanceof e NotSubscribed
       then ret false
       else raise e).

(** [async getFollows(page?, limit?, orderBy?, orderDirection?) {
      return this._client.users.getFollowedChannels(
               this, page, limit, orderBy, orderDirection); }]
    An omitted optional argument is [undefined], here [None]. *)
Definition getFollows
    (page limit : option number)
    (orderBy : option OrderBy) (orderDirection : option OrderDirection)
  : M (list UserFollow) :=
  client <- this_client ;;
  self <- this_ref ;;
  users_getFollowedChannels client self page limit orderBy orderDirection.

(** [async getFollowTo(channel) {
      return this._client.users.getFollowedChannel(this, channel); }] *)
Definition getFollowTo (channel : UserIdResolvable) : M UserFollow :=
  client <- this_client ;;
  self <- this_ref ;;
  users_getFollowedChannel client self channel.

(** [async follows(channel) {
      try { await this.getFollowTo(channel); return true; }
      catch (e) {
        if (e instanceof NotFollowing) { return false; }
        throw e;
      } }] *)
Definition follows (channel : UserIdResolvable) : M bool :=
  catch
    (getFollowTo channel ;;
     ret true)
    (fun e =>
       if instanceof e NotFollowing
       then ret false
       else raise e).

(** [async follow() {
      const currentUser = await this._client.users.getMe();
      return currentUser.followChannel(this); }] *)
Definition follow : M FollowChannelResult :=
  client <- this_client ;;
  currentUser <- users_getMe client ;;
  self <- this_ref ;;
  followChannel currentUser self.

(** [async unfollow() {
      const currentUser = await this._client.users.getMe();
      return currentUser.unfollowChannel(this); }] *)
Definition unfollow : M unit :=
  client <- this_client ;;
  currentUser <- users_getMe client ;;
  self <- this_ref ;;
  unfollowChannel currentUser self.
End Methods.
End User.


(** ** Sequences of calls on one instance *)

(** The six getters of the class. *)
Inductive Accessor : Type :=
| get_cacheKey | get_id | get_userName | get_name | get_displayName
| get_logoUrl.

(** Any member of the class, with its arguments. *)
Inductive Member {T : ApiTypes} : Type :=
| member_get (a : Accessor)
| member_getChannel
| member_getChannelPlaceholder
| member_getStream
| member_getSubscriptionTo (channel : UserIdResolvable)
| member_isSubscribedTo (channel : UserIdResolvable)
| member_getFollows (page limit : option number)
                    (orderBy : option OrderBy)
                    (orderDirection : option OrderDirection)
| member_getFollowTo (channel : UserIdResolvable)
| member_follows (channel : UserIdResolvable)
| member_follow
| member_unfollow.

Section Dispatch.
Context {T : ApiTypes} {api : TwitchApi}.

Definition read (a : Accessor) : M string :=
  match a with
  | get_cacheKey => User.cacheKey
  | get_id => User.id
  | get_userName => User.userName
  | get_name => User.name
  | get_displayName => User.displayName
  | get_logoUrl => User.logoUrl
  end.

(** The state a computation leaves behind, whether it returned or threw. *)
Definition after {A : Type} (m : M A) (w : World) : World := snd (run m w).

Definition invoke (m : Member) (w : World) : World :=
  match m with
  | member_get a => after (read a) w
  | member_getChannel => after User.getChannel w
  | member_getChannelPlaceholder => after User.getChannelPlaceholder w
  | member_getStream => after User.getStream w
  | member_getSubscriptionTo channel => after (User.getSubscriptionTo channel) w
  | member_isSubscribedTo channel => after (User.isSubscribedTo channel) w
  | member_getFollows page limit orderBy orderDirection =>
      after (User.getFollows page limit orderBy orderDirection) w
  | member_getFollowTo channel => after (User.getFollowTo channel) w
  | member_follows channel => after (User.follows channel) w
  | member_follow => after User.follow w
  | member_unfollow => after User.unfollow w
  end.

Definition invoke_all (ms : list Member) (w : World) : World :=
  fold_left (fun w' m => invoke m w') ms w.
End Dispatch.

(** ** Round trips

    Which members run without the client, and how many collaborator calls a
    member issues at least and at most. *)

(** The getters and [getChannelPlaceholder] never reach for [this._client]'s
    operations. *)
Definition is_local {T : ApiTypes} (m : Member) : bool :=
  match m with
  | member_get _ | member_getChannelPlaceholder => true
  | _ => false
  end.

(** Every other member awaits one collaborator call before anything else. *)
Definition min_calls {T : ApiTypes} (m : Member) : nat :=
  if is_local m then 0 else 1.

(** [follow] and [unfollow] await a second call after [getMe]. *)
Definition max_calls {T : ApiTypes} (m : Member) : nat :=
  match m with
  | member_follow | member_unfollow => 2
  | _ => if is_local m then 0 else 1
  end.

(** A logged call is about the user [u]: it went through [u]'s own client
    where it names a client, and the user (or identifier) it carries is [u]
    (or [u]'s). *)
Definition concerns {T : ApiTypes} (u : User) (c : Call) : Prop :=
  match c with
  | Call_channels_getChannel client user => client = _client u /\ user = u
  | Call_placeholder_getStream placeholder =>
      placeholder_client placeholder = _client u /\
      placeholder_id placeholder = UserData._id (_data u)
  | Call_users_getSubscriptionData client user _ =>
      client = _client u /\ user = u
  | Call_users_getFollowedChannels client user _ _ _ _ =>
      client = _client u /\ user = u
  | Call_users_getFollowedChannel client user _ =>
      client = _client u /\ user = u
  | Call_users_getMe client => client = _client u
  | Call_followChannel _ channel => channel = u
  | Call_unfollowChannel _ channel => channel = u
  end.

(** ** A test double of the remote service

    A small in-memory stand-in for the client, used to run the facade on
    concrete inputs.  Handles and records are plain strings; the remote state
    lists who subscribes to and who follows which channel. *)
Module Double.

Record Service : Type := mkService {
  online : bool;
  authenticated : option string;
  programs : list string;
  subscriptions : list (string * string);
  followed : list (string * string);
  live : list string
}.

#[export] Instance types : ApiTypes := {|
  TwitchClient := string;
  UserIdResolvable := string;
  Channel := string;
  Stream := option string;
  UserSubscription := string * string;
  UserFollow := string * string;
  PrivilegedUser := string;
  FollowChannelResult := string * string;
  Remote := Service
|}.

Definition timeout : Thrown :=
  mkThrown [OtherClass "HTTPStatusCodeError"; OtherClass "Error"]
           "request timed out".

Definition error (c : ErrorClass) : Thrown :=
  mkThrown [c; OtherClass "Error"] "".

Definition has (p : string * string) (l : list (string * string)) : bool :=
  existsb (fun q => String.eqb (fst p) (fst q) && String.eqb (snd p) (snd q)) l.

Definition guarded {A : Type} (f : Service -> (Thrown + A) * Service)
  : Service -> (Thrown + A) * Service :=
  fun s => if online s then f s else (inl timeout, s).

Definition uid (u : User) : string := UserData._id (_data u).

#[export] Instance api : TwitchApi := {|
  api_channels_getChannel := fun _ u => guarded (fun s => (inr (uid u), s));
  api_placeholder_getStream := fun p => guarded (fun s =>
    (inr (if existsb (String.eqb (placeholder_id p)) (live s)
          then Some (placeholder_id p) else None), s));
  api_users_getSubscriptionData := fun _ u ch => guarded (fun s =>
    if negb (existsb (String.eqb ch) (programs s))
    then (inl (error NoSubscriptionProgram), s)
    else if has (uid u, ch) (subscriptions s)
    then (inr (uid u, ch), s)
    else (inl (error NotSubscribed), s));
  api_users_getFollowedChannels := fun _ u _ _ _ _ => guarded (fun s =>
    (inr (filter (fun q => String.eqb (fst q) (uid u)) (followed s)), s));
  api_users_getFollowedChannel := fun _ u ch => guarded (fun s =>
    if has (uid u, ch) (followed s)
    then (inr (uid u, ch), s)
    else (inl (error NotFollowing), s));
  api_users_getMe := fun _ => guarded (fun s =>
    match authenticated s with
    | Some me => (inr me, s)
    | None => (inl (mkThrown [OtherClass "Error"] "no access token"), s)
    end);
  api_followChannel := fun me u => guarded (fun s =>
    (inr (me, uid u),
     mkService (online s) (authenticated s) (programs s) (subscriptions s)
               ((me, uid u) :: followed s) (live s)));
  api_unfollowChannel := fun me u => guarded (fun s =>
    (inr tt,
     mkService (online s) (authenticated s) (programs s) (subscriptions s)
               (filter (fun q => negb (String.eqb (fst q) me
                                       && String.eqb (snd q) (uid u)))
                       (followed s))
               (live s)))
|}.

Definition record (id login : string) : UserData.t :=
  UserData.mk id "" "2016-01-01T00:00:00Z" login login
              ("https://static.example/" ++ login ++ ".png")%string "user"
              "2016-01-02T00:00:00Z".

Definition viewer : User := new_User (record "44322889" "viewer") "client".

Definition service : Service :=
  mkService true (Some "1") ["channelX"; "channelY"]
            [("44322889", "channelY")] [("44322889", "channelZ")]
            ["44322889"].

Definition start : World := mkWorld viewer service [].

Definition offline : World :=
  mkWorld viewer
          (mkService false (Some "1") ["channelX"; "channelY"]
                     [("44322889", "channelY")] [] [])
          [].

Definition anonymous : World :=
  mkWorld viewer
          (mkService true None ["channelX"; "channelY"]
                     [("44322889", "channelY")] [] [])
          [].
End Double.

(** A client whose subscription and follow lookups always reject with a
    given value; everything else answers as the test double does. *)
Module Faulty.

Definition api (e : Thrown) : @TwitchApi Double.types := {|
  api_channels_getChannel := @api_channels_getChannel _ Double.api;
  api_placeholder_getStream := @api_placeholder_getStream _ Double.api;
  api_users_getSubscriptionData := fun _ _ _ s => (inl e, s);
  api_users_getFollowedChannels :=
    @api_users_getFollowedChannels _ Double.api;
  api_users_getFollowedChannel := fun _ _ _ s => (inl e, s);
  api_users_getMe := @api_users_getMe _ Double.api;
  api_followChannel := @api_followChannel _ Double.api;
  api_unfollowChannel := @api_unfollowChannel _ Double.api
|}.

(** A thrown string: a primitive has no prototype chain. *)
Definition primitive : Thrown := mkThrown [] "connection reset".

(** An instance of a class that extends [NotSubscribed]. *)
Definition expired : Thrown :=
  mkThrown [OtherClass "SubscriptionExpired"; NotSubscribed;
            OtherClass "Error"] "subscription expired".

(** An instance of a class that extends [NotFollowing]. *)
Definition blocked : Thrown :=
  mkThrown [OtherClass "Blocked"; NotFollowing; OtherClass "Error"] "blocked".
End Faulty.

(** * Properties

    ** How computations run *)

Lemma ErrorClass_eqb_eq (c d : ErrorClass) :
  ErrorClass_eqb c d = true <-> c = d.
Proof.
  destruct c, d; cbn; split; intros H;
    try reflexivity; try discriminate H.
  - apply String.eqb_eq in H. subst. reflexivity.
  - inversion H. apply String.eqb_refl.
Qed.

(** [e instanceof C] holds exactly when [C] is on the prototype chain. *)
Lemma instanceof_In (e : Thrown) (C : ErrorClass) :
  instanceof e C = true <-> In C (protoChain e).
Proof.
  unfold instanceof. rewrite existsb_exists. split.
  - intros [d [Hd Heq]]. apply ErrorClass_eqb_eq in Heq. subst. exact Hd.
  - intros H. exists C. split; [exact H | apply ErrorClass_eqb_eq; reflexivity].
Qed.

Section Running.
Context {T : ApiTypes}.

Lemma run_ret (A : Type) (a : A) (w : World) :
  run (ret a) w = (inr a, w).
Proof. reflexivity. Qed.

Lemma run_raise (A : Type) (e : Thrown) (w : World) :
  run (raise e : M A) w = (inl e, w).
Proof. reflexivity. Qed.

Lemma run_get (w : World) : run get w = (inr w, w).
Proof. reflexivity. Qed.

Lemma run_bind (A B : Type) (m : M A) (k : A -> M B) (w : World) :
  run (bind m k) w =
  match run m w with
  | (inl e, w') => (inl e, w')
  | (inr a, w') => run (k a) w'
  end.
Proof.
  unfold run. cbn.
  destruct (runState (unEitherT m) w) as [[e | a] w']; reflexivity.
Qed.

Lemma run_catch (A : Type) (m : M A) (h : Thrown -> M A) (w : World) :
  run (catch m h) w =
  match run m w with
  | (inl e, w') => run (h e) w'
  | (inr a, w') => (inr a, w')
  end.
Proof.
  unfold run. cbn.
  destruct (runState (unEitherT m) w) as [[e | a] w']; reflexivity.
Qed.

Lemma run_remote_call (A : Type) (c : Call) (answer : Reply A) (w : World) :
  run (remote_call c answer) w = settle c answer w.
Proof.
  unfold run, settle. cbn.
  destruct (answer (remote w)) as [r rem]. reflexivity.
Qed.

Lemma run_this_data (w : World) : run this_data w = (inr (_data (this w)), w).
Proof. reflexivity. Qed.

Lemma run_this_client (w : World) :
  run this_client w = (inr (_client (this w)), w).
Proof. reflexivity. Qed.

Lemma run_this_ref (w : World) : run this_ref w = (inr (this w), w).
Proof. reflexivity. Qed.

Lemma keeps_this_ret (A : Type) (a : A) : keeps_this (ret a).
Proof. intros w. reflexivity. Qed.

Lemma keeps_this_raise (A : Type) (e : Thrown) : keeps_this (raise e : M A).
Proof. intros w. reflexivity. Qed.

Lemma keeps_this_get : keeps_this get.
Proof. intros w. reflexivity. Qed.

Lemma keeps_this_remote_call (A : Type) (c : Call) (answer : Reply A) :
  keeps_this (remote_call c answer).
Proof. intros w. rewrite run_remote_call. reflexivity. Qed.

Lemma keeps_this_bind (A B : Type) (m : M A) (k : A -> M B) :
  keeps_this m -> (forall a, keeps_this (k a)) -> keeps_this (bind m k).
Proof.
  intros Hm Hk w. rewrite run_bind.
  specialize (Hm w).
  destruct (run m w) as [[e | a] w']; cbn in *.
  - exact Hm.
  - rewrite Hk. exact Hm.
Qed.

Lemma keeps_this_catch (A : Type) (m : M A) (h : Thrown -> M A) :
  keeps_this m -> (forall e, keeps_this (h e)) -> keeps_this (catch m h).
Proof.
  intros Hm Hh w. rewrite run_catch.
  specialize (Hm w).
  destruct (run m w) as [[e | a] w']; cbn in *.
  - rewrite Hh. exact Hm.
  - exact Hm.
Qed.

Lemma keeps_this_if (A : Type) (b : bool) (m1 m2 : M A) :
  keeps_this m1 -> keeps_this m2 -> keeps_this (if b then m1 else m2).
Proof. destruct b; auto. Qed.
End Running.

Create HintDb facade discriminated.
#[export] Hint Resolve keeps_this_ret keeps_this_raise keeps_this_get
  keeps_this_remote_call keeps_this_bind keeps_this_catch keeps_this_if
  : facade.

(** ** The facade *)

Section Facade.
Context {T : ApiTypes} {api : TwitchApi}.

(** Unfold a getter or a forwarding method down to the run equations. *)
Ltac run_method :=
  repeat (rewrite ?run_bind, ?run_this_data, ?run_this_client, ?run_this_ref,
                  ?run_ret, ?run_remote_call; cbn [fst snd]).

Lemma run_getSubscriptionTo (channel : UserIdResolvable) (w : World) :
  run (User.getSubscriptionTo channel) w =
  settle (Call_users_getSubscriptionData (_client (this w)) (this w) channel)
         (api_users_getSubscriptionData (_client (this w)) (this w) channel)
         w.
Proof.
  unfold User.getSubscriptionTo, users_getSubscriptionData.
  run_method. reflexivity.
Qed.

Lemma run_getFollowTo (channel : UserIdResolvable) (w : World) :
  run (User.getFollowTo channel) w =
  settle (Call_users_getFollowedChannel (_client (this w)) (this w) channel)
         (api_users_getFollowedChannel (_client (this w)) (this w) channel)
         w.
Proof.
  unfold User.getFollowTo, users_getFollowedChannel.
  run_method. reflexivity.
Qed.

Lemma run_isSubscribedTo (channel : UserIdResolvable) (w : World) :
  run (User.isSubscribedTo channel) w =
  match run (User.getSubscriptionTo channel) w with
  | (inr _, w') => (inr true, w')
  | (inl e, w') =>
      if instanceof e NoSubscriptionProgram || instanceof e NotSubscribed
      then (inr false, w')
      else (inl e, w')
  end.
Proof.
  unfold User.isSubscribedTo. rewrite run_catch, run_bind.
  destruct (run (User.getSubscriptionTo channel) w) as [[e | sub] w'].
  - destruct (instanceof e NoSubscriptionProgram || instanceof e NotSubscribed);
      reflexivity.
  - reflexivity.
Qed.

Lemma run_follows (channel : UserIdResolvable) (w : World) :
  run (User.follows channel) w =
  match run (User.getFollowTo channel) w with
  | (inr _, w') => (inr true, w')
  | (inl e, w') =>
      if instanceof e NotFollowing then (inr false, w') else (inl e, w')
  end.
Proof.
  unfold User.follows. rewrite run_catch, run_bind.
  destruct (run (User.getFollowTo channel) w) as [[e | f] w'].
  - destruct (instanceof e NotFollowing); reflexivity.
  - reflexivity.
Qed.

(** C1: [isSubscribedTo(channel)] issues the one [getSubscriptionData] call
    for (this, channel); it returns [true] when that call resolves, [false]
    when it rejects with an instance of [NoSubscriptionProgram] or of
    [NotSubscribed], and rejects with the very same value otherwise. *)
Theorem isSubscribedTo_classifies (channel : UserIdResolvable) (w : World) :
  let reply :=
    api_users_getSubscriptionData (_client (this w)) (this w) channel
                                  (remote w) in
  let result := fst (run (User.isSubscribedTo channel) w) in
  (forall sub, fst reply = inr sub -> result = inr true) /\
  (forall e, fst reply = inl e ->
     instanceof e NoSubscriptionProgram = true \/
     instanceof e NotSubscribed = true ->
     result = inr false) /\
  (forall e, fst reply = inl e ->
     instanceof e NoSubscriptionProgram = false ->
     instanceof e NotSubscribed = false ->
     result = inl e) /\
  calls (snd (run (User.isSubscribedTo channel) w)) =
    calls w ++
    [Call_users_getSubscriptionData (_client (this w)) (this w) channel].
Proof.
  cbv zeta. rewrite run_isSubscribedTo, run_getSubscriptionTo.
  unfold settle.
  destruct (api_users_getSubscriptionData (_client (this w)) (this w) channel
                                          (remote w)) as [[e | sub] rem];
    cbn [fst snd].
  - repeat split.
    + intros sub H. discriminate H.
    + intros e' H [Hp | Hs]; inversion H; subst e'.
      * rewrite Hp. reflexivity.
      * rewrite Hs, orb_true_r. reflexivity.
    + intros e' H Hp Hs. inversion H; subst e'.
      rewrite Hp, Hs. reflexivity.
    + destruct (instanceof e NoSubscriptionProgram
                || instanceof e NotSubscribed);
        reflexivity.
  - repeat split.
    + intros e H. discriminate H.
    + intros e H. discriminate H.
Qed.

(** C2: [follows(channel)] issues the one [getFollowedChannel] call for
    (this, channel); it returns [false] exactly when that call rejects with
    an instance of [NotFollowing], [true] when it resolves, and rejects with
    the very same value otherwise. *)
Theorem follows_classifies (channel : UserIdResolvable) (w : World) :
  let reply :=
    api_users_getFollowedChannel (_client (this w)) (this w) channel
                                 (remote w) in
  let result := fst (run (User.follows channel) w) in
  (result = inr false <->
     exists e, fst reply = inl e /\ instanceof e NotFollowing = true) /\
  (forall f, fst reply = inr f -> result = inr true) /\
  (forall e, fst reply = inl e -> instanceof e NotFollowing = false ->
     result = inl e) /\
  calls (snd (run (User.follows channel) w)) =
    calls w ++
    [Call_users_getFollowedChannel (_client (this w)) (this w) channel].
Proof.
  cbv zeta. rewrite run_follows, run_getFollowTo.
  unfold settle.
  destruct (api_users_getFollowedChannel (_client (this w)) (this w) channel
                                         (remote w)) as [[e | f] rem];
    cbn [fst snd].
  - destruct (instanceof e NotFollowing) eqn:He; cbn [fst snd].
    + repeat split.
      * intros _. exists e. split; [reflexivity | exact He].
      * intros f H. discriminate H.
      * intros e' H He'. inversion H; subst e'. congruence.
    + repeat split.
      * intros H. discriminate H.
      * intros [e' [H He']]. inversion H; subst e'. congruence.
      * intros f H. discriminate H.
      * intros e' H _. inversion H; subst e'. reflexivity.
  - repeat split.
    + intros H. discriminate H.
    + intros [e [H _]]. discriminate H.
    + intros e H. discriminate H.
Qed.
(** C3: on every instance the accessors [id], [name], [displayName] and
    [logoUrl] return the stored fields [_id], [name], [display_name] and
    [logo] of the backing record as they are; they never throw and leave the
    receiver, the remote service and the call log untouched. *)
Theorem accessors_project (w : World) :
  run User.id w = (inr (UserData._id (_data (this w))), w) /\
  run User.name w = (inr (UserData.name (_data (this w))), w) /\
  run User.displayName w = (inr (UserData.display_name (_data (this w))), w) /\
  run User.logoUrl w = (inr (UserData.logo (_data (this w))), w).
Proof.
  unfold User.id, User.name, User.displayName, User.logoUrl.
  repeat split; run_method; reflexivity.
Qed.

Lemma keeps_this_this_data : keeps_this this_data.
Proof. unfold this_data. auto with facade. Qed.

Lemma keeps_this_this_client : keeps_this this_client.
Proof. unfold this_client. auto with facade. Qed.

Lemma keeps_this_this_ref : keeps_this this_ref.
Proof. unfold this_ref. auto with facade. Qed.

Hint Resolve keeps_this_this_data keeps_this_this_client keeps_this_this_ref
  : facade.

Lemma keeps_this_read (a : Accessor) : keeps_this (read a).
Proof.
  destruct a; cbn [read];
    unfold User.cacheKey, User.id, User.userName, User.name,
           User.displayName, User.logoUrl;
    auto with facade.
Qed.

Lemma keeps_this_getChannelPlaceholder : keeps_this User.getChannelPlaceholder.
Proof. unfold User.getChannelPlaceholder. auto 6 with facade. Qed.

Lemma keeps_this_getSubscriptionTo (channel : UserIdResolvable) :
  keeps_this (User.getSubscriptionTo channel).
Proof.
  unfold User.getSubscriptionTo, users_getSubscriptionData.
  auto 6 with facade.
Qed.

Lemma keeps_this_getFollowTo (channel : UserIdResolvable) :
  keeps_this (User.getFollowTo channel).
Proof.
  unfold User.getFollowTo, users_getFollowedChannel.
  auto 6 with facade.
Qed.

Lemma keeps_this_getChannel : keeps_this User.getChannel.
Proof. unfold User.getChannel, channels_getChannel. auto 6 with facade. Qed.

Lemma keeps_this_getStream : keeps_this User.getStream.
Proof.
  unfold User.getStream, placeholder_getStream.
  apply keeps_this_bind;
    [apply keeps_this_getChannelPlaceholder | auto with facade].
Qed.

Lemma keeps_this_isSubscribedTo (channel : UserIdResolvable) :
  keeps_this (User.isSubscribedTo channel).
Proof.
  unfold User.isSubscribedTo.
  apply keeps_this_catch.
  - apply keeps_this_bind;
      [apply keeps_this_getSubscriptionTo | auto with facade].
  - auto with facade.
Qed.

Lemma keeps_this_getFollows
    (page limit : option number)
    (orderBy : option OrderBy) (orderDirection : option OrderDirection) :
  keeps_this (User.getFollows page limit orderBy orderDirection).
Proof.
  unfold User.getFollows, users_getFollowedChannels. auto 6 with facade.
Qed.

Lemma keeps_this_follows (channel : UserIdResolvable) :
  keeps_this (User.follows channel).
Proof.
  unfold User.follows.
  apply keeps_this_catch.
  - apply keeps_this_bind;
      [apply keeps_this_getFollowTo | auto with facade].
  - auto with facade.
Qed.

Lemma keeps_this_follow : keeps_this User.follow.
Proof. unfold User.follow, users_getMe, followChannel. auto 8 with facade. Qed.

Lemma keeps_this_unfollow : keeps_this User.unfollow.
Proof.
  unfold User.unfollow, users_getMe, unfollowChannel. auto 8 with facade.
Qed.

(** Every member of the class leaves the receiver as it found it. *)
Lemma invoke_keeps_this (m : Member) (w : World) :
  this (invoke m w) = this w.
Proof.
  destruct m; cbn [invoke]; unfold after.
  - apply keeps_this_read.
  - apply keeps_this_getChannel.
  - apply keeps_this_getChannelPlaceholder.
  - apply keeps_this_getStream.
  - apply keeps_this_getSubscriptionTo.
  - apply keeps_this_isSubscribedTo.
  - apply keeps_this_getFollows.
  - apply keeps_this_getFollowTo.
  - apply keeps_this_follows.
  - apply keeps_this_follow.
  - apply keeps_this_unfollow.
Qed.

Lemma read_depends_on_this (a : Accessor) (w1 w2 : World) :
  this w1 = this w2 -> fst (run (read a) w1) = fst (run (read a) w2).
Proof.
  intros H.
  destruct a; cbn [read];
    unfold User.cacheKey, User.id, User.userName, User.name,
           User.displayName, User.logoUrl;
    run_method; rewrite H; reflexivity.
Qed.

(** C4: whatever sequence of members is called on an instance, with
    whatever arguments and whatever the collaborators answer, the receiver's
    backing record (hence its identifier) and client reference are
    afterwards what they were, and every accessor returns the value it
    returned before. *)
Theorem facade_never_mutates (ms : list Member) (w : World) :
  this (invoke_all ms w) = this w /\
  _data (this (invoke_all ms w)) = _data (this w) /\
  UserData._id (_data (this (invoke_all ms w)))
    = UserData._id (_data (this w)) /\
  forall a : Accessor,
    fst (run (read a) (invoke_all ms w)) = fst (run (read a) w).
Proof.
  assert (H : this (invoke_all ms w) = this w).
  { unfold invoke_all. revert w.
    induction ms as [| m ms IH]; intros w; cbn [fold_left].
    - reflexivity.
    - rewrite IH. apply invoke_keeps_this. }
  repeat split.
  - exact H.
  - rewrite H. reflexivity.
  - rewrite H. reflexivity.
  - intros a. apply read_depends_on_this. exact H.
Qed.
(** C5: [getChannelPlaceholder()] returns normally on every instance,
    changes neither the remote service nor the call log (so it issues no
    remote call), and the placeholder it builds carries the entity's own
    identifier (the value [id] returns) and the entity's client reference. *)
Theorem getChannelPlaceholder_local (w : World) :
  exists p : ChannelPlaceholder,
    run User.getChannelPlaceholder w = (inr p, w) /\
    placeholder_id p = UserData._id (_data (this w)) /\
    fst (run User.id w) = inr (placeholder_id p) /\
    placeholder_client p = _client (this w) /\
    calls (snd (run User.getChannelPlaceholder w)) = calls w /\
    remote (snd (run User.getChannelPlaceholder w)) = remote w.
Proof.
  exists (new_ChannelPlaceholder (UserData._id (_data (this w)))
                                 (_client (this w))).
  unfold User.getChannelPlaceholder, User.id.
  run_method. repeat split.
Qed.

(** C6: [getStream()] builds the placeholder for this entity's identifier
    and client and calls its [getStream()] once, issuing no other call; what
    that call settles to (a stream value as the client defines it, or a
    rejection) is the outcome of [getStream()], unchanged. *)
Theorem getStream_delegates (w : World) :
  let placeholder :=
    new_ChannelPlaceholder (UserData._id (_data (this w))) (_client (this w)) in
  let reply := api_placeholder_getStream placeholder (remote w) in
  fst (run User.getStream w) = fst reply /\
  remote (snd (run User.getStream w)) = snd reply /\
  calls (snd (run User.getStream w)) =
    calls w ++ [Call_placeholder_getStream placeholder] /\
  fst (run User.getChannelPlaceholder w) = inr placeholder.
Proof.
  cbv zeta.
  unfold User.getStream, User.getChannelPlaceholder, placeholder_getStream.
  run_method. unfold settle. cbn [fst snd remote calls].
  repeat split.
Qed.

(** C7: [follow()] and [unfollow()] first call [getMe()] on the held
    client.  If that rejects, the method rejects with the same value and
    [getMe] is the only call issued.  If it resolves to [currentUser], the
    method then calls [currentUser.followChannel(this)] (respectively
    [currentUser.unfollowChannel(this)]) and settles exactly as that call
    does. *)
Theorem follow_unfollow_via_getMe (w : World) :
  let client := _client (this w) in
  let me := api_users_getMe client (remote w) in
  (forall e, fst me = inl e ->
     run User.follow w =
       (inl e,
        mkWorld (this w) (snd me) (calls w ++ [Call_users_getMe client]))
     /\
     run User.unfollow w =
       (inl e,
        mkWorld (this w) (snd me) (calls w ++ [Call_users_getMe client])))
  /\
  (forall currentUser, fst me = inr currentUser ->
     (let reply := api_followChannel currentUser (this w) (snd me) in
      run User.follow w =
        (fst reply,
         mkWorld (this w) (snd reply)
                 (calls w ++ [Call_users_getMe client;
                              Call_followChannel currentUser (this w)])))
     /\
     (let reply := api_unfollowChannel currentUser (this w) (snd me) in
      run User.unfollow w =
        (fst reply,
         mkWorld (this w) (snd reply)
                 (calls w ++ [Call_users_getMe client;
                              Call_unfollowChannel currentUser (this w)])))).
Proof.
  cbv zeta.
  unfold User.follow, User.unfollow, users_getMe, followChannel,
         unfollowChannel.
  split.
  - intros e He. run_method. unfold settle. rewrite He. split; reflexivity.
  - intros currentUser Hme. run_method. unfold settle.
    rewrite Hme. run_method. unfold settle. cbn [this remote calls].
    rewrite <- !app_assoc. split; reflexivity.
Qed.

(** C8: for every combination of present and absent arguments,
    [getFollows(page, limit, orderBy, orderDirection)] issues the one
    [getFollowedChannels] call with this entity followed by the four
    arguments exactly as received (an absent one stays absent, so the
    collaborator's default applies) and settles as that call does; [orderBy]
    ranges over created_at, last_broadcast and login, [orderDirection] over
    asc and desc. *)
Theorem getFollows_forwards
    (page limit : option number)
    (orderBy : option OrderBy) (orderDirection : option OrderDirection)
    (w : World) :
  let reply :=
    api_users_getFollowedChannels (_client (this w)) (this w) page limit
                                  orderBy orderDirection (remote w) in
  run (User.getFollows page limit orderBy orderDirection) w =
    (fst reply,
     mkWorld (this w) (snd reply)
             (calls w ++
              [Call_users_getFollowedChannels (_client (this w)) (this w)
                 page limit orderBy orderDirection])) /\
  (forall ob : OrderBy, ob = created_at \/ ob = last_broadcast \/ ob = login) /\
  (forall od : OrderDirection, od = asc \/ od = desc).
Proof.
  cbv zeta. unfold User.getFollows, users_getFollowedChannels.
  run_method. unfold settle. repeat split.
  - intros ob. destruct ob; auto.
  - intros od. destruct od; auto.
Qed.

(** C9: on every instance [cacheKey] and [id] return the same value, the
    stored [_id] field. *)
Theorem cacheKey_is_id (w : World) :
  run User.cacheKey w = run User.id w /\
  fst (run User.cacheKey w) = inr (UserData._id (_data (this w))).
Proof.
  unfold User.cacheKey, User.id. run_method. split; reflexivity.
Qed.

(** C10: on every instance the deprecated [userName] returns the same value
    as [name], the stored [name] field. *)
Theorem userName_is_name (w : World) :
  run User.userName w = run User.name w /\
  fst (run User.userName w) = inr (UserData.name (_data (this w))).
Proof.
  unfold User.userName, User.name. run_method. split; reflexivity.
Qed.

(** ** Further properties of the facade *)

Lemma run_getChannel (w : World) :
  run User.getChannel w =
  settle (Call_channels_getChannel (_client (this w)) (this w))
         (api_channels_getChannel (_client (this w)) (this w))
         w.
Proof.
  unfold User.getChannel, channels_getChannel. run_method. reflexivity.
Qed.

(** X1: [getChannel()] issues exactly one [channels.getChannel] call on the
    held client, passing the whole receiver; it resolves or rejects exactly
    as that call does and the receiver is left as it was. *)
Theorem getChannel_forwards (w : World) :
  let reply :=
    api_channels_getChannel (_client (this w)) (this w) (remote w) in
  run User.getChannel w =
    (fst reply,
     mkWorld (this w) (snd reply)
             (calls w ++
              [Call_channels_getChannel (_client (this w)) (this w)])).
Proof. cbv zeta. rewrite run_getChannel. reflexivity. Qed.

(** X2: [getSubscriptionTo] and [getFollowTo] do not classify.  Whatever the
    collaborator rejects with, an instance of [NoSubscriptionProgram],
    [NotSubscribed] or [NotFollowing] included, is the rejection of the
    method; a resolved record is returned as received; one call is issued. *)
Theorem lookups_pass_through (channel : UserIdResolvable) (w : World) :
  let sub :=
    api_users_getSubscriptionData (_client (this w)) (this w) channel
                                  (remote w) in
  let fol :=
    api_users_getFollowedChannel (_client (this w)) (this w) channel
                                 (remote w) in
  (forall e, fst sub = inl e ->
     fst (run (User.getSubscriptionTo channel) w) = inl e) /\
  (forall r, fst sub = inr r ->
     fst (run (User.getSubscriptionTo channel) w) = inr r) /\
  snd (run (User.getSubscriptionTo channel) w) =
    mkWorld (this w) (snd sub)
            (calls w ++
             [Call_users_getSubscriptionData (_client (this w)) (this w)
                                             channel]) /\
  (forall e, fst fol = inl e ->
     fst (run (User.getFollowTo channel) w) = inl e) /\
  (forall r, fst fol = inr r ->
     fst (run (User.getFollowTo channel) w) = inr r) /\
  snd (run (User.getFollowTo channel) w) =
    mkWorld (this w) (snd fol)
            (calls w ++
             [Call_users_getFollowedChannel (_client (this w)) (this w)
                                            channel]).
Proof.
  cbv zeta. rewrite run_getSubscriptionTo, run_getFollowTo.
  unfold settle. cbn [fst snd].
  split; [| split; [| split; [| split; [| split]]]];
    try reflexivity; intros x H; exact H.
Qed.

(** X3: [isSubscribedTo] and [getSubscriptionTo] agree.  Run from the same
    state they leave the same state behind; the check is [true] exactly
    when the lookup resolves, [false] exactly when the lookup rejects with
    an instance of [NoSubscriptionProgram] or [NotSubscribed], and when the
    check rejects, the lookup rejects with the same value. *)
Theorem isSubscribedTo_agrees_with_getSubscriptionTo
    (channel : UserIdResolvable) (w : World) :
  let looked := run (User.getSubscriptionTo channel) w in
  let checked := run (User.isSubscribedTo channel) w in
  snd checked = snd looked /\
  (fst checked = inr true <-> exists sub, fst looked = inr sub) /\
  (fst checked = inr false <->
     exists e, fst looked = inl e /\
               (instanceof e NoSubscriptionProgram = true \/
                instanceof e NotSubscribed = true)) /\
  (forall e, fst checked = inl e -> fst looked = inl e).
Proof.
  cbv zeta. rewrite run_isSubscribedTo.
  destruct (run (User.getSubscriptionTo channel) w) as [[e | sub] w'].
  - destruct (instanceof e NoSubscriptionProgram || instanceof e NotSubscribed)
      eqn:Hor; cbn [fst snd].
    + apply orb_true_iff in Hor.
      split; [reflexivity | split; [| split]].
      * split; [intros H; discriminate H | intros [x H]; discriminate H].
      * split; [intros _; exists e; split; [reflexivity | exact Hor]
               | reflexivity].
      * intros e' H. discriminate H.
    + apply orb_false_iff in Hor. destruct Hor as [Hp Hs].
      split; [reflexivity | split; [| split]].
      * split; [intros H; discriminate H | intros [x H]; discriminate H].
      * split; [intros H; discriminate H |].
        intros [e' [H [Hp' | Hs']]]; inversion H; subst e'; congruence.
      * intros e' H. inversion H. reflexivity.
  - cbn [fst snd].
    split; [reflexivity | split; [| split]].
    + split; [intros _; exists sub; reflexivity | reflexivity].
    + split; [intros H; discriminate H | intros [e [H _]]; discriminate H].
    + intros e H. discriminate H.
Qed.

(** X4: [follows] and [getFollowTo] agree.  Run from the same state they
    leave the same state behind; the check is [true] exactly when the
    lookup resolves, [false] exactly when the lookup rejects with an
    instance of [NotFollowing], and when the check rejects, the lookup
    rejects with the same value. *)
Theorem follows_agrees_with_getFollowTo
    (channel : UserIdResolvable) (w : World) :
  let looked := run (User.getFollowTo channel) w in
  let checked := run (User.follows channel) w in
  snd checked = snd looked /\
  (fst checked = inr true <-> exists f, fst looked = inr f) /\
  (fst checked = inr false <->
     exists e, fst looked = inl e /\ instanceof e NotFollowing = true) /\
  (forall e, fst checked = inl e -> fst looked = inl e).
Proof.
  cbv zeta. rewrite run_follows.
  destruct (run (User.getFollowTo channel) w) as [[e | f] w'].
  - destruct (instanceof e NotFollowing) eqn:He; cbn [fst snd].
    + split; [reflexivity | split; [| split]].
      * split; [intros H; discriminate H | intros [x H]; discriminate H].
      * split; [intros _; exists e; split; [reflexivity | exact He]
               | reflexivity].
      * intros e' H. discriminate H.
    + split; [reflexivity | split; [| split]].
      * split; [intros H; discriminate H | intros [x H]; discriminate H].
      * split; [intros H; discriminate H |].
        intros [e' [H He']]. inversion H; subst e'. congruence.
      * intros e' H. inversion H. reflexivity.
  - cbn [fst snd].
    split; [reflexivity | split; [| split]].
    + split; [intros _; exists f; reflexivity | reflexivity].
    + split; [intros H; discriminate H | intros [e [H _]]; discriminate H].
    + intros e H. discriminate H.
Qed.

(** X5: a rejection of [isSubscribedTo] is never an instance of
    [NoSubscriptionProgram] or of [NotSubscribed], and a rejection of
    [follows] is never an instance of [NotFollowing]: a caller's handler for
    these classes around the checks is dead code. *)
Theorem checks_never_reject_with_classified_class
    (channel : UserIdResolvable) (w : World) (e : Thrown) :
  (fst (run (User.isSubscribedTo channel) w) = inl e ->
     instanceof e NoSubscriptionProgram = false /\
     instanceof e NotSubscribed = false) /\
  (fst (run (User.follows channel) w) = inl e ->
     instanceof e NotFollowing = false).
Proof.
  rewrite run_isSubscribedTo, run_follows.
  split.
  - destruct (run (User.getSubscriptionTo channel) w) as [[e' | sub] w'].
    + destruct (instanceof e' NoSubscriptionProgram) eqn:Hp;
        destruct (instanceof e' NotSubscribed) eqn:Hs; cbn [orb fst];
        intros H; try discriminate H.
      inversion H; subst e'. split; assumption.
    + cbn [fst]. intros H. discriminate H.
  - destruct (run (User.getFollowTo channel) w) as [[e' | f] w'].
    + destruct (instanceof e' NotFollowing) eqn:He; cbn [fst];
        intros H; try discriminate H.
      inversion H; subst e'. assumption.
    + cbn [fst]. intros H. discriminate H.
Qed.

Lemma fst_run_isSubscribedTo (channel : UserIdResolvable) (w : World) :
  fst (run (User.isSubscribedTo channel) w) =
  match fst (api_users_getSubscriptionData (_client (this w)) (this w)
                                           channel (remote w)) with
  | inr _ => inr true
  | inl e =>
      if instanceof e NoSubscriptionProgram || instanceof e NotSubscribed
      then inr false
      else inl e
  end.
Proof.
  rewrite run_isSubscribedTo, run_getSubscriptionTo. unfold settle.
  destruct (fst (api_users_getSubscriptionData (_client (this w)) (this w)
                                               channel (remote w)))
    as [e | sub]; [| reflexivity].
  destruct (instanceof e NoSubscriptionProgram || instanceof e NotSubscribed);
    reflexivity.
Qed.

Lemma snd_run_isSubscribedTo (channel : UserIdResolvable) (w : World) :
  snd (run (User.isSubscribedTo channel) w) =
  mkWorld (this w)
          (snd (api_users_getSubscriptionData (_client (this w)) (this w)
                                              channel (remote w)))
          (calls w ++
           [Call_users_getSubscriptionData (_client (this w)) (this w)
                                           channel]).
Proof.
  rewrite run_isSubscribedTo, run_getSubscriptionTo. unfold settle.
  destruct (fst (api_users_getSubscriptionData (_client (this w)) (this w)
                                               channel (remote w)))
    as [e | sub]; [| reflexivity].
  destruct (instanceof e NoSubscriptionProgram || instanceof e NotSubscribed);
    reflexivity.
Qed.

Lemma fst_run_follows (channel : UserIdResolvable) (w : World) :
  fst (run (User.follows channel) w) =
  match fst (api_users_getFollowedChannel (_client (this w)) (this w)
                                          channel (remote w)) with
  | inr _ => inr true
  | inl e => if instanceof e NotFollowing then inr false else inl e
  end.
Proof.
  rewrite run_follows, run_getFollowTo. unfold settle.
  destruct (fst (api_users_getFollowedChannel (_client (this w)) (this w)
                                              channel (remote w)))
    as [e | f]; [| reflexivity].
  destruct (instanceof e NotFollowing); reflexivity.
Qed.

Lemma snd_run_follows (channel : UserIdResolvable) (w : World) :
  snd (run (User.follows channel) w) =
  mkWorld (this w)
          (snd (api_users_getFollowedChannel (_client (this w)) (this w)
                                             channel (remote w)))
          (calls w ++
           [Call_users_getFollowedChannel (_client (this w)) (this w)
                                          channel]).
Proof.
  rewrite run_follows, run_getFollowTo. unfold settle.
  destruct (fst (api_users_getFollowedChannel (_client (this w)) (this w)
                                              channel (remote w)))
    as [e | f]; [| reflexivity].
  destruct (instanceof e NotFollowing); reflexivity.
Qed.

Lemma instanceof_primitive (e : Thrown) (C : ErrorClass) :
  protoChain e = [] -> instanceof e C = false.
Proof. intros H. unfold instanceof. rewrite H. reflexivity. Qed.

(** X6: the checks classify by prototype chain.  A rejection with an
    instance of a subclass of [NoSubscriptionProgram] or [NotSubscribed]
    (respectively [NotFollowing]), where the class sits anywhere on the
    chain, becomes [false]; a rejection with a primitive, which has no
    chain, is re-raised by both checks. *)
Theorem checks_classify_by_prototype_chain
    (channel : UserIdResolvable) (w : World) (e : Thrown) :
  let sub :=
    api_users_getSubscriptionData (_client (this w)) (this w) channel
                                  (remote w) in
  let fol :=
    api_users_getFollowedChannel (_client (this w)) (this w) channel
                                 (remote w) in
  (fst sub = inl e ->
     In NoSubscriptionProgram (protoChain e) \/
     In NotSubscribed (protoChain e) ->
     fst (run (User.isSubscribedTo channel) w) = inr false) /\
  (fst fol = inl e ->
     In NotFollowing (protoChain e) ->
     fst (run (User.follows channel) w) = inr false) /\
  (protoChain e = [] ->
     (fst sub = inl e ->
        fst (run (User.isSubscribedTo channel) w) = inl e) /\
     (fst fol = inl e ->
        fst (run (User.follows channel) w) = inl e)).
Proof.
  cbv zeta. rewrite fst_run_isSubscribedTo, fst_run_follows.
  split; [| split].
  - intros H Hin. rewrite H.
    rewrite <- !instanceof_In in Hin. apply orb_true_iff in Hin.
    rewrite Hin. reflexivity.
  - intros H Hin. rewrite H.
    apply instanceof_In in Hin. rewrite Hin. reflexivity.
  - intros Hnil. split; intros H; rewrite H;
      rewrite !instanceof_primitive by exact Hnil; reflexivity.
Qed.

(** X7: the checks keep no cache.  A second [isSubscribedTo] (or [follows])
    for the same channel issues the same call again, against the remote
    state the first call left behind; if the collaborator settles that call
    as it settled the first, the second check returns what the first
    returned. *)
Theorem checks_keep_no_cache (channel : UserIdResolvable) (w : World) :
  let sub :=
    api_users_getSubscriptionData (_client (this w)) (this w) channel in
  let fol :=
    api_users_getFollowedChannel (_client (this w)) (this w) channel in
  let w1 := snd (run (User.isSubscribedTo channel) w) in
  let w2 := snd (run (User.follows channel) w) in
  snd (run (User.isSubscribedTo channel) w1) =
    mkWorld (this w) (snd (sub (snd (sub (remote w)))))
            (calls w ++
             [Call_users_getSubscriptionData (_client (this w)) (this w)
                                             channel;
              Call_users_getSubscriptionData (_client (this w)) (this w)
                                             channel]) /\
  (fst (sub (snd (sub (remote w)))) = fst (sub (remote w)) ->
     fst (run (User.isSubscribedTo channel) w1) =
     fst (run (User.isSubscribedTo channel) w)) /\
  snd (run (User.follows channel) w2) =
    mkWorld (this w) (snd (fol (snd (fol (remote w)))))
            (calls w ++
             [Call_users_getFollowedChannel (_client (this w)) (this w)
                                            channel;
              Call_users_getFollowedChannel (_client (this w)) (this w)
                                            channel]) /\
  (fst (fol (snd (fol (remote w)))) = fst (fol (remote w)) ->
     fst (run (User.follows channel) w2) =
     fst (run (User.follows channel) w)).
Proof.
  cbv zeta.
  rewrite !snd_run_isSubscribedTo, !snd_run_follows,
          !fst_run_isSubscribedTo, !fst_run_follows.
  cbn [this remote calls]. rewrite <- !app_assoc. cbn [app].
  split; [reflexivity | split; [| split; [reflexivity |]]].
  - intros H. rewrite H. reflexivity.
  - intros H. rewrite H. reflexivity.
Qed.

Lemma run_getStream (w : World) :
  run User.getStream w =
  settle
    (Call_placeholder_getStream
       (new_ChannelPlaceholder (UserData._id (_data (this w)))
                               (_client (this w))))
    (api_placeholder_getStream
       (new_ChannelPlaceholder (UserData._id (_data (this w)))
                               (_client (this w))))
    w.
Proof.
  unfold User.getStream, User.getChannelPlaceholder, placeholder_getStream.
  run_method. reflexivity.
Qed.

(** X8: [getStream()] uses nothing of the record but its identifier.  Two
    instances with the same [_id] and the same client, whatever their other
    fields, get the same outcome from the same remote state and leave the
    same remote state. *)
Theorem getStream_uses_only_id (w1 w2 : World) :
  UserData._id (_data (this w1)) = UserData._id (_data (this w2)) ->
  _client (this w1) = _client (this w2) ->
  remote w1 = remote w2 ->
  fst (run User.getStream w1) = fst (run User.getStream w2) /\
  remote (snd (run User.getStream w1)) = remote (snd (run User.getStream w2)).
Proof.
  intros Hid Hclient Hremote. rewrite !run_getStream. unfold settle.
  cbn [fst snd remote]. rewrite Hid, Hclient, Hremote.
  split; reflexivity.
Qed.

(** A local member hands back the very state it was given. *)
Lemma invoke_local (m : Member) (w : World) :
  is_local m = true -> invoke m w = w.
Proof.
  destruct m; cbn [is_local]; intros H; try discriminate H;
    cbn [invoke]; unfold after.
  - destruct a; cbn [read];
      unfold User.cacheKey, User.id, User.userName, User.name,
             User.displayName, User.logoUrl;
      run_method; reflexivity.
  - unfold User.getChannelPlaceholder. run_method. reflexivity.
Qed.

(** One member appends its calls to the log, within its bounds, and every
    one of them is about the receiver. *)
Lemma invoke_calls (m : Member) (w : World) :
  exists l : list Call,
    calls (invoke m w) = calls w ++ l /\
    min_calls m <= length l <= max_calls m /\
    Forall (concerns (this w)) l.
Proof.
  destruct (is_local m) eqn:Hlocal.
  - exists []. rewrite (invoke_local m w Hlocal), app_nil_r.
    unfold min_calls. rewrite Hlocal. cbn.
    split; [reflexivity | split; [lia | constructor]].
  - destruct m; cbn [is_local] in Hlocal; try discriminate Hlocal;
      cbn [invoke min_calls max_calls is_local]; unfold after.
    + rewrite run_getChannel. eexists [_]. cbn.
      split; [reflexivity | split; [lia | repeat constructor]].
    + rewrite run_getStream. eexists [_]. cbn.
      split; [reflexivity | split; [lia | repeat constructor]].
    + rewrite run_getSubscriptionTo. eexists [_]. cbn.
      split; [reflexivity | split; [lia | repeat constructor]].
    + rewrite snd_run_isSubscribedTo. eexists [_]. cbn.
      split; [reflexivity | split; [lia | repeat constructor]].
    + unfold User.getFollows, users_getFollowedChannels. run_method.
      eexists [_]. cbn.
      split; [reflexivity | split; [lia | repeat constructor]].
    + rewrite run_getFollowTo. eexists [_]. cbn.
      split; [reflexivity | split; [lia | repeat constructor]].
    + rewrite snd_run_follows. eexists [_]. cbn.
      split; [reflexivity | split; [lia | repeat constructor]].
    + unfold User.follow, users_getMe, followChannel. run_method.
      unfold settle.
      destruct (api_users_getMe (_client (this w)) (remote w))
        as [[e | me] rem]; cbn [fst snd].
      * eexists [_]. cbn.
        split; [reflexivity | split; [lia | repeat constructor]].
      * run_method. unfold settle. cbn [this remote calls snd].
        rewrite <- app_assoc. eexists [_; _]. cbn.
        split; [reflexivity | split; [lia | repeat constructor]].
    + unfold User.unfollow, users_getMe, unfollowChannel. run_method.
      unfold settle.
      destruct (api_users_getMe (_client (this w)) (remote w))
        as [[e | me] rem]; cbn [fst snd].
      * eexists [_]. cbn.
        split; [reflexivity | split; [lia | repeat constructor]].
      * run_method. unfold settle. cbn [this remote calls snd].
        rewrite <- app_assoc. eexists [_; _]. cbn.
        split; [reflexivity | split; [lia | repeat constructor]].
Qed.

(** X9: the call log only grows, and by a bounded amount.  After any
    sequence of members the log is the old log followed by new entries;
    their number is at least one per member that is not a getter or
    [getChannelPlaceholder], and at most that plus one more for each
    [follow] or [unfollow]. *)
Theorem round_trip_budget (ms : list Member) (w : World) :
  exists l : list Call,
    calls (invoke_all ms w) = calls w ++ l /\
    list_sum (map min_calls ms) <= length l <= list_sum (map max_calls ms).
Proof.
  unfold invoke_all. revert w.
  induction ms as [| m ms IH]; intros w; cbn [fold_left map].
  - exists []. rewrite app_nil_r. cbn. split; [reflexivity | lia].
  - destruct (IH (invoke m w)) as [l2 [H2 B2]].
    destruct (invoke_calls m w) as [l1 [H1 [B1 _]]].
    exists (l1 ++ l2). rewrite H2, H1, <- app_assoc, length_app.
    split; [reflexivity |].
    unfold list_sum in *. cbn [fold_right]. lia.
Qed.

(** X10: getters and [getChannelPlaceholder] are free.  Striking them from
    any sequence of member calls changes nothing of the state the sequence
    ends in: the receiver, the remote service and the call log are the
    same. *)
Theorem local_members_are_free (ms : list Member) (w : World) :
  invoke_all (filter (fun m => negb (is_local m)) ms) w = invoke_all ms w.
Proof.
  unfold invoke_all. revert w.
  induction ms as [| m ms IH]; intros w; cbn [filter fold_left].
  - reflexivity.
  - destruct (is_local m) eqn:Hlocal; cbn [negb fold_left].
    + rewrite (invoke_local m w Hlocal). apply IH.
    + apply IH.
Qed.

(** X11: the facade never acts for anyone else.  Every call that any
    sequence of members adds to the log goes through the receiver's own
    client, and the user, or the identifier, it carries is the receiver's. *)
Theorem calls_concern_the_receiver (ms : list Member) (w : World) :
  exists l : list Call,
    calls (invoke_all ms w) = calls w ++ l /\
    Forall (concerns (this w)) l.
Proof.
  unfold invoke_all. revert w.
  induction ms as [| m ms IH]; intros w; cbn [fold_left].
  - exists []. rewrite app_nil_r. split; [reflexivity | constructor].
  - destruct (IH (invoke m w)) as [l2 [H2 F2]].
    destruct (invoke_calls m w) as [l1 [H1 [_ F1]]].
    rewrite invoke_keeps_this in F2.
    exists (l1 ++ l2). rewrite H2, H1, <- app_assoc.
    split; [reflexivity | apply Forall_app; split; assumption].
Qed.
End Facade.

(** ** Scenarios on the test double

    The viewer "44322889" subscribes to channelY only and follows channelZ
    only; channelX has a subscription program; the authenticated user is
    "1". *)

#[local] Existing Instance Double.types.
#[local] Existing Instance Double.api.

(** [isSubscribedTo] on a subscribed channel, on a channel the viewer is not
    subscribed to, and while the transport times out. *)
Lemma isSubscribedTo_scenarios :
  fst (run (User.isSubscribedTo "channelY") Double.start) = inr true /\
  fst (run (User.isSubscribedTo "channelX") Double.start) = inr false /\
  fst (run (User.isSubscribedTo "channelY") Double.offline)
    = inl Double.timeout.
Proof.
  pose proof (@isSubscribedTo_classifies Double.types Double.api) as H.
  split; [| split].
  - exact (proj1 (H "channelY" Double.start)
                 ("44322889", "channelY") eq_refl).
  - exact (proj1 (proj2 (H "channelX" Double.start))
                 (Double.error NotSubscribed) eq_refl (or_intror eq_refl)).
  - exact (proj1 (proj2 (proj2 (H "channelY" Double.offline)))
                 Double.timeout eq_refl eq_refl eq_refl).
Defined.

(** [follows] on a followed channel, on one that is not followed, and while
    the transport times out. *)
Lemma follows_scenarios :
  fst (run (User.follows "channelZ") Double.start) = inr true /\
  fst (run (User.follows "channelX") Double.start) = inr false /\
  fst (run (User.follows "channelZ") Double.offline) = inl Double.timeout.
Proof.
  pose proof (@follows_classifies Double.types Double.api) as H.
  split; [| split].
  - exact (proj1 (proj2 (H "channelZ" Double.start))
                 ("44322889", "channelZ") eq_refl).
  - exact (proj2 (proj1 (H "channelX" Double.start))
                 (ex_intro _ (Double.error NotFollowing)
                           (conj eq_refl eq_refl))).
  - exact (proj1 (proj2 (proj2 (H "channelZ" Double.offline)))
                 Double.timeout eq_refl eq_refl).
Defined.

(** [follow()] with the authenticated user "1", and [follow()] and
    [unfollow()] when there is no authenticated user. *)
Lemma follow_scenarios :
  fst (run User.follow Double.start) = inr ("1", "44322889") /\
  calls (snd (run User.follow Double.start))
    = [Call_users_getMe "client"; Call_followChannel "1" Double.viewer] /\
  calls (snd (run User.follow Double.anonymous))
    = [Call_users_getMe "client"] /\
  calls (snd (run User.unfollow Double.anonymous))
    = [Call_users_getMe "client"].
Proof.
  pose proof (@follow_unfollow_via_getMe Double.types Double.api) as H.
  destruct (H Double.start) as [_ Hok].
  destruct (H Double.anonymous) as [Hfail _].
  destruct (Hok "1" eq_refl) as [Hfollow _].
  destruct (Hfail (mkThrown [OtherClass "Error"] "no access token") eq_refl)
    as [Hf Hu].
  split; [| split; [| split]].
  - rewrite Hfollow. reflexivity.
  - rewrite Hfollow. reflexivity.
  - rewrite Hf. reflexivity.
  - rewrite Hu. reflexivity.
Defined.

(** [getFollows(2, undefined, 'login')]: the omitted arguments reach the
    collaborator as absent. *)
Example getFollows_run :
  run (User.getFollows (Some 2%float) None (Some login) None) Double.start =
  (inr [("44322889", "channelZ")],
   mkWorld Double.viewer Double.service
           [Call_users_getFollowedChannels "client" Double.viewer
              (Some 2%float) None (Some login) None]).
Proof. reflexivity. Qed.

(** The viewer is live, so [getStream()] resolves to their stream. *)
Example getStream_run :
  fst (run User.getStream Double.start) = inr (Some "44322889") /\
  calls (snd (run User.getStream Double.start)) =
    [Call_placeholder_getStream (new_ChannelPlaceholder "44322889" "client")].
Proof. split; reflexivity. Qed.

(** Following, unfollowing and querying change the remote service, not the
    instance. *)
Example sequence_run :
  let w := invoke_all [member_follow; member_isSubscribedTo "channelX";
                       member_unfollow; member_get get_id] Double.start in
  this w = Double.viewer /\
  length (calls w) = 5 /\
  fst (run User.id w) = inr "44322889".
Proof. cbv zeta. repeat split. Qed.

(** ** Scenarios for the further properties *)

(** While the transport times out both checks reject with the timeout,
    which is an instance of none of the three classes. *)
Lemma checks_never_reject_scenario :
  (instanceof Double.timeout NoSubscriptionProgram = false /\
   instanceof Double.timeout NotSubscribed = false) /\
  instanceof Double.timeout NotFollowing = false.
Proof.
  destruct (@checks_never_reject_with_classified_class
              Double.types Double.api "channelY" Double.offline
              Double.timeout) as [Hsub Hfol].
  split; [exact (Hsub eq_refl) | exact (Hfol eq_refl)].
Defined.

(** A subclass instance becomes [false]; a thrown string is re-raised. *)
Lemma checks_classify_scenario :
  fst (run (@User.isSubscribedTo _ (Faulty.api Faulty.expired) "channelY")
           Double.start) = inr false /\
  fst (run (@User.follows _ (Faulty.api Faulty.blocked) "channelZ")
           Double.start) = inr false /\
  fst (run (@User.isSubscribedTo _ (Faulty.api Faulty.primitive) "channelY")
           Double.start) = inl Faulty.primitive /\
  fst (run (@User.follows _ (Faulty.api Faulty.primitive) "channelZ")
           Double.start) = inl Faulty.primitive.
Proof.
  pose proof (@checks_classify_by_prototype_chain Double.types) as H.
  split; [| split; [| split]].
  - apply (proj1 (H (Faulty.api Faulty.expired) "channelY" Double.start
                    Faulty.expired)).
    + reflexivity.
    + right. cbn. auto.
  - apply (proj1 (proj2 (H (Faulty.api Faulty.blocked) "channelZ"
                           Double.start Faulty.blocked))).
    + reflexivity.
    + cbn. auto.
  - apply (proj2 (proj2 (H (Faulty.api Faulty.primitive) "channelY"
                           Double.start Faulty.primitive))); reflexivity.
  - apply (proj2 (proj2 (H (Faulty.api Faulty.primitive) "channelZ"
                           Double.start Faulty.primitive))); reflexivity.
Defined.

(** Asking twice about channelX gives the same answer twice. *)
Lemma checks_keep_no_cache_scenario :
  fst (run (User.isSubscribedTo "channelX")
           (snd (run (User.isSubscribedTo "channelX") Double.start)))
    = fst (run (User.isSubscribedTo "channelX") Double.start) /\
  fst (run (User.follows "channelX")
           (snd (run (User.follows "channelX") Double.start)))
    = fst (run (User.follows "channelX") Double.start).
Proof.
  destruct (@checks_keep_no_cache Double.types Double.api "channelX"
                                  Double.start)
    as [_ [Hsub [_ Hfol]]].
  split; [exact (Hsub eq_refl) | exact (Hfol eq_refl)].
Defined.

(** A stale copy of the viewer's record, renamed since, gets the same
    stream lookup. *)
Lemma getStream_uses_only_id_scenario :
  fst (run User.getStream Double.start) =
  fst (run User.getStream
           (mkWorld (new_User (Double.record "44322889" "renamed") "client")
                    Double.service [])).
Proof.
  exact (proj1 (@getStream_uses_only_id Double.types Double.api
                  Double.start
                  (mkWorld (new_User (Double.record "44322889" "renamed")
                                     "client")
                           Double.service [])
                  eq_refl eq_refl eq_refl)).
Defined.
